(** * Mergington High School API: a model of [src/app.py]

    The service keeps its activities in one MongoDB collection and exposes
    three handlers over it: [get_activities], [signup_for_activity] and
    [unregister_from_activity], plus the start-up seeding step
    [seed_activities_if_empty].

    The collection is modelled as the list of its documents in natural
    (insertion) order; a handler is a function from the collection to an
    outcome (a returned value or a raised [HTTPException]) and the
    collection it leaves behind. *)

From stdpp Require Import base option list strings gmap.
From Stdlib Require Import ZArith Lia.

Local Open Scope string_scope.

(** ** Documents *)

(** A stored document.  The field types are those of the literal documents
    of [INITIAL_ACTIVITIES]; every field is optional because the handlers
    read them with [dict.get].  The store-assigned [_id] is never read by
    the handlers and is left out. *)
Record document := Document {
  name : option string;
  description : option string;
  schedule : option string;
  max_participants : option Z;
  participants : option (list string);
}.

Abbreviation collection := (list document).

(** [d.get("participants", [])] and [d.get("max_participants", 0)] *)
Definition get_participants (d : document) : list string :=
  default [] (participants d).

Definition get_max_participants (d : document) : Z :=
  default 0%Z (max_participants d).

(** ** Seed data (app.py, lines 34-98) *)

Definition INITIAL_ACTIVITIES : collection := [
  {| name := Some "Chess Club";
     description := Some "Learn strategies and compete in chess tournaments";
     schedule := Some "Fridays, 3:30 PM - 5:00 PM";
     max_participants := Some 12%Z;
     participants := Some ["michael@mergington.edu"; "daniel@mergington.edu"] |};
  {| name := Some "Programming Class";
     description := Some "Learn programming fundamentals and build software projects";
     schedule := Some "Tuesdays and Thursdays, 3:30 PM - 4:30 PM";
     max_participants := Some 20%Z;
     participants := Some ["emma@mergington.edu"; "sophia@mergington.edu"] |};
  {| name := Some "Gym Class";
     description := Some "Physical education and sports activities";
     schedule := Some "Mondays, Wednesdays, Fridays, 2:00 PM - 3:00 PM";
     max_participants := Some 30%Z;
     participants := Some ["john@mergington.edu"; "olivia@mergington.edu"] |};
  {| name := Some "Soccer Team";
     description := Some "Join the school soccer team and compete in matches";
     schedule := Some "Tuesdays and Thursdays, 4:00 PM - 5:30 PM";
     max_participants := Some 22%Z;
     participants := Some ["liam@mergington.edu"; "noah@mergington.edu"] |};
  {| name := Some "Basketball Team";
     description := Some "Practice and play basketball with the school team";
     schedule := Some "Wednesdays and Fridays, 3:30 PM - 5:00 PM";
     max_participants := Some 15%Z;
     participants := Some ["ava@mergington.edu"; "mia@mergington.edu"] |};
  {| name := Some "Art Club";
     description := Some "Explore your creativity through painting and drawing";
     schedule := Some "Thursdays, 3:30 PM - 5:00 PM";
     max_participants := Some 15%Z;
     participants := Some ["amelia@mergington.edu"; "harper@mergington.edu"] |};
  {| name := Some "Drama Club";
     description := Some "Act, direct, and produce plays and performances";
     schedule := Some "Mondays and Wednesdays, 4:00 PM - 5:30 PM";
     max_participants := Some 20%Z;
     participants := Some ["ella@mergington.edu"; "scarlett@mergington.edu"] |};
  {| name := Some "Math Club";
     description := Some "Solve challenging problems and participate in math competitions";
     schedule := Some "Tuesdays, 3:30 PM - 4:30 PM";
     max_participants := Some 10%Z;
     participants := Some ["james@mergington.edu"; "benjamin@mergington.edu"] |};
  {| name := Some "Debate Team";
     description := Some "Develop public speaking and argumentation skills";
     schedule := Some "Fridays, 4:00 PM - 5:30 PM";
     max_participants := Some 12%Z;
     participants := Some ["charlotte@mergington.edu"; "henry@mergington.edu"] |}
].

(** ** The collection operations the handlers call *)

Module Mongo.

(** The filter [{"name": activity_name}]. *)
Definition matches (activity_name : string) (d : document) : bool :=
  bool_decide (name d = Some activity_name).

(** [count_documents({})] *)
Definition count_documents (col : collection) : nat := length col.

(** [insert_many(docs)]: the documents are stored after the existing ones. *)
Definition insert_many (docs : list document) (col : collection) : collection :=
  col ++ docs.

(** [find({})]: every document, in natural order. *)
Definition find (col : collection) : list document := col.

(** [find_one({"name": activity_name})]: the first matching document. *)
Fixpoint find_one (activity_name : string) (col : collection) : option document :=
  match col with
  | [] => None
  | d :: rest =>
      if matches activity_name d then Some d else find_one activity_name rest
  end.

(** [update_one({"name": activity_name}, update)]: the update is applied to
    the first matching document only; no match, no change. *)
Fixpoint update_one (activity_name : string) (update : document → document)
    (col : collection) : collection :=
  match col with
  | [] => []
  | d :: rest =>
      if matches activity_name d then update d :: rest
      else d :: update_one activity_name update rest
  end.

(** [{"$push": {"participants": email}}]: append at the end of the array,
    creating the array when the field is absent. *)
Definition push (email : string) (d : document) : document :=
  {| name := name d;
     description := description d;
     schedule := schedule d;
     max_participants := max_participants d;
     participants := Some (get_participants d ++ [email])%list |}.

(** [{"$pull": {"participants": email}}]: remove every element equal to
    [email]; an absent field stays absent. *)
Definition pull (email : string) (d : document) : document :=
  {| name := name d;
     description := description d;
     schedule := schedule d;
     max_participants := max_participants d;
     participants := filter (λ p, p ≠ email) <$> participants d |}.

End Mongo.

(** ** Handlers: state passing with exceptions *)

Record HTTPException := {
  status_code : Z;
  detail : string;
}.

Inductive outcome (A : Type) :=
| Return (a : A)
| Raise (e : HTTPException).
Arguments Return {A} a.
Arguments Raise {A} e.

Definition handler (A : Type) : Type := collection → outcome A * collection.

Definition ret {A} (a : A) : handler A := λ col, (Return a, col).

Definition raise {A} (status : Z) (msg : string) : handler A :=
  λ col, (Raise {| status_code := status; detail := msg |}, col).

Definition bind {A B} (m : handler A) (k : A → handler B) : handler B :=
  λ col,
    match m col with
    | (Return a, col') => k a col'
    | (Raise e, col') => (Raise e, col')
    end.

Notation "'let*' x ':=' m 'in' k" := (bind m (λ x, k))
  (at level 10, x pattern, m at level 100, k at level 200).

Definition count_documents : handler nat :=
  λ col, (Return (Mongo.count_documents col), col).

Definition insert_many (docs : list document) : handler unit :=
  λ col, (Return tt, Mongo.insert_many docs col).

Definition find : handler (list document) :=
  λ col, (Return (Mongo.find col), col).

Definition find_one (activity_name : string) : handler (option document) :=
  λ col, (Return (Mongo.find_one activity_name col), col).

Definition update_one (activity_name : string) (update : document → document)
    : handler unit :=
  λ col, (Return tt, Mongo.update_one activity_name update col).

(** [try: m except Exception: pass] *)
Definition try_pass (m : handler unit) : handler unit :=
  λ col, (Return tt, (m col).2).

(** ** Start-up (app.py, lines 101-114) *)

Definition seed_activities_if_empty : handler unit :=
  let* n := count_documents in
  if bool_decide (n = 0) then insert_many INITIAL_ACTIVITIES else ret tt.

Definition on_startup : handler unit :=
  try_pass seed_activities_if_empty.

(** ** GET /activities (app.py, lines 122-136) *)

(** The values that occur in a response body. *)
Inductive json :=
| JStr (s : string)
| JInt (z : Z)
| JList (l : list string).

(** The dict built for one document. *)
Definition entry (d : document) : gmap string json :=
  {[ "description" := JStr (default "" (description d));
     "schedule" := JStr (default "" (schedule d));
     "max_participants" := JInt (get_max_participants d);
     "participants" := JList (get_participants d) ]}.

(** One iteration of the loop: [if not name: continue], else
    [result[name] = {...}]. *)
Definition get_activities_step (result : gmap string (gmap string json))
    (d : document) : gmap string (gmap string json) :=
  match name d with
  | None => result
  | Some n => if bool_decide (n = "") then result else <[n := entry d]> result
  end.

Definition get_activities : handler (gmap string (gmap string json)) :=
  let* docs := find in
  ret (foldl get_activities_step ∅ docs).

(** ** POST /activities/{activity_name}/signup (app.py, lines 139-155) *)

Definition signup_for_activity (activity_name email : string)
    : handler (gmap string string) :=
  let* activity := find_one activity_name in
  match activity with
  | None => raise 404 "Activity not found"
  | Some activity =>
      let participants := get_participants activity in
      if bool_decide (email ∈ participants) then
        raise 400 "Student is already signed up"
      else
        let max_p := get_max_participants activity in
        if (Z.of_nat (length participants) >=? max_p)%Z then
          raise 400 "No spots available"
        else
          let* _ := update_one activity_name (Mongo.push email) in
          ret {[ "message" := "Signed up " +:+ email +:+ " for " +:+ activity_name ]}
  end.

(** ** DELETE /activities/{activity_name}/unregister (app.py, lines 158-169) *)

Definition unregister_from_activity (activity_name email : string)
    : handler (gmap string string) :=
  let* activity := find_one activity_name in
  match activity with
  | None => raise 404 "Activity not found"
  | Some activity =>
      let participants := get_participants activity in
      if bool_decide (email ∉ participants) then
        raise 400 "Student is not signed up for this activity"
      else
        let* _ := update_one activity_name (Mongo.pull email) in
        ret {[ "message" := "Unregistered " +:+ email +:+ " from " +:+ activity_name ]}
  end.

(** ** Requests against a running service *)

Inductive request :=
| Signup (activity_name email : string)
| Unregister (activity_name email : string).

Definition dispatch (r : request) : handler (gmap string string) :=
  match r with
  | Signup activity_name email => signup_for_activity activity_name email
  | Unregister activity_name email => unregister_from_activity activity_name email
  end.

(** The collection after serving one request, and after a sequence of them. *)
Definition serve (col : collection) (r : request) : collection := (dispatch r col).2.

Definition serve_all (rs : list request) (col : collection) : collection :=
  foldl serve col rs.

(** The collection after the first start-up against an empty store. *)
Definition seeded : collection := (on_startup []).2.

(** ** Invariants of the data model *)

Definition unique_participants (d : document) : Prop := NoDup (get_participants d).

Definition within_capacity (d : document) : Prop :=
  (Z.of_nat (length (get_participants d)) ≤ get_max_participants d)%Z.

(** ** What a request does, and what a listing shows *)

(** The collection after one run of the start-up hook. *)
Definition startup (col : collection) : collection := (on_startup col).2.

(** What a request does to the collection: nothing, a push on the activity
    found (only when the email is new and a spot is free), or a pull on the
    activity found (only when the email is listed). *)
Inductive effect (col : collection) : request → collection → Prop :=
| effect_none r :
    effect col r col
| effect_push activity_name email activity :
    Mongo.find_one activity_name col = Some activity →
    email ∉ get_participants activity →
    (Z.of_nat (length (get_participants activity)) < get_max_participants activity)%Z →
    effect col (Signup activity_name email)
      (Mongo.update_one activity_name (Mongo.push email) col)
| effect_pull activity_name email activity :
    Mongo.find_one activity_name col = Some activity →
    email ∈ get_participants activity →
    effect col (Unregister activity_name email)
      (Mongo.update_one activity_name (Mongo.pull email) col).

(** A document that yields an entry under the key [n]. *)
Definition listed_as (n : string) (d : document) : Prop :=
  name d = Some n ∧ n ≠ "".

Global Instance listed_as_dec n d : Decision (listed_as n d).
Proof. unfold listed_as. apply _. Defined.

(** A document the loop skips: its name is absent or empty. *)
Definition has_name (d : document) : Prop :=
  name d ≠ None ∧ name d ≠ Some "".

Global Instance has_name_dec d : Decision (has_name d).
Proof. unfold has_name. apply _. Defined.

(** ** The catalog of the specification *)

(** The catalog as the specification's table lists it (name, schedule,
    max_participants, the two seeded participants), with the description
    the specification gives for each name. *)
Definition catalog_row (n sched : string) (maxp : Z) (p1 p2 : string)
    (descr : string) : document :=
  {| name := Some n; description := Some descr; schedule := Some sched;
     max_participants := Some maxp; participants := Some [p1; p2] |}.

Definition SPEC_CATALOG : list document := [
  catalog_row "Chess Club" "Fridays, 3:30 PM - 5:00 PM" 12
    "michael@mergington.edu" "daniel@mergington.edu"
    "Learn strategies and compete in chess tournaments";
  catalog_row "Programming Class" "Tuesdays and Thursdays, 3:30 PM - 4:30 PM" 20
    "emma@mergington.edu" "sophia@mergington.edu"
    "Learn programming fundamentals and build software projects";
  catalog_row "Gym Class" "Mondays, Wednesdays, Fridays, 2:00 PM - 3:00 PM" 30
    "john@mergington.edu" "olivia@mergington.edu"
    "Physical education and sports activities";
  catalog_row "Soccer Team" "Tuesdays and Thursdays, 4:00 PM - 5:30 PM" 22
    "liam@mergington.edu" "noah@mergington.edu"
    "Join the school soccer team and compete in matches";
  catalog_row "Basketball Team" "Wednesdays and Fridays, 3:30 PM - 5:00 PM" 15
    "ava@mergington.edu" "mia@mergington.edu"
    "Practice and play basketball with the school team";
  catalog_row "Art Club" "Thursdays, 3:30 PM - 5:00 PM" 15
    "amelia@mergington.edu" "harper@mergington.edu"
    "Explore your creativity through painting and drawing";
  catalog_row "Drama Club" "Mondays and Wednesdays, 4:00 PM - 5:30 PM" 20
    "ella@mergington.edu" "scarlett@mergington.edu"
    "Act, direct, and produce plays and performances";
  catalog_row "Math Club" "Tuesdays, 3:30 PM - 4:30 PM" 10
    "james@mergington.edu" "benjamin@mergington.edu"
    "Solve challenging problems and participate in math competitions";
  catalog_row "Debate Team" "Fridays, 4:00 PM - 5:30 PM" 12
    "charlotte@mergington.edu" "henry@mergington.edu"
    "Develop public speaking and argumentation skills"
].

(** ** Sample collections *)

(** A one-document collection whose activity is full. *)
Definition full_chess_club : document :=
  {| name := Some "Chess Club";
     description := Some "Learn strategies and compete in chess tournaments";
     schedule := Some "Fridays, 3:30 PM - 5:00 PM";
     max_participants := Some 2%Z;
     participants := Some ["michael@mergington.edu"; "daniel@mergington.edu"] |}.

(** Three stored records: one without a name, one with an empty name, and
    one with a name and nothing else. *)
Definition sparse_collection : collection := [
  {| name := None; description := Some "No name"; schedule := None;
     max_participants := Some 5%Z; participants := None |};
  {| name := Some ""; description := Some "Empty name"; schedule := None;
     max_participants := Some 5%Z; participants := None |};
  {| name := Some "Robotics"; description := None; schedule := None;
     max_participants := None; participants := None |}
].

(** A stored activity that lists one email twice. *)
Definition doubled_club : document :=
  {| name := Some "Chess Club"; description := None; schedule := None;
     max_participants := Some 5%Z;
     participants := Some ["ann@mergington.edu"; "bob@mergington.edu";
                           "ann@mergington.edu"] |}.

(** A stored activity with a name and nothing else. *)
Definition bare_club : document :=
  {| name := Some "Robotics"; description := None; schedule := None;
     max_participants := None; participants := None |}.

(** ** The target of a request, and what no request writes *)

Definition request_activity (r : request) : string :=
  match r with
  | Signup activity_name _ | Unregister activity_name _ => activity_name
  end.

Definition request_email (r : request) : string :=
  match r with
  | Signup _ email | Unregister _ email => email
  end.

(** The fields of a document other than its participants. *)
Definition catalog_fields (d : document)
    : option string * option string * option string * option Z :=
  (name d, description d, schedule d, max_participants d).

(** The participants of a document other than [email], in stored order. *)
Definition others (email : string) (d : document) : list string :=
  filter (λ p, p ≠ email) (get_participants d).

(** The keys under which the documents of a collection are listed. *)
Definition listed_names (col : collection) : list string :=
  omap (λ d, match name d with
             | Some n => if bool_decide (n = "") then None else Some n
             | None => None
             end) col.

(** * Properties *)

Example signup_alice :
  (signup_for_activity "Chess Club" "alice@mergington.edu" INITIAL_ACTIVITIES).1
  = Return {[ "message" := "Signed up alice@mergington.edu for Chess Club" ]}.
Proof. reflexivity. Qed.

Example signup_alice_store :
  get_participants <$>
    Mongo.find_one "Chess Club"
      (signup_for_activity "Chess Club" "alice@mergington.edu" INITIAL_ACTIVITIES).2
  = Some ["michael@mergington.edu"; "daniel@mergington.edu"; "alice@mergington.edu"].
Proof. reflexivity. Qed.

Example unregister_bob_not_signed_up :
  unregister_from_activity "Math Club" "bob@mergington.edu" INITIAL_ACTIVITIES
  = (Raise {| status_code := 400;
              detail := "Student is not signed up for this activity" |},
     INITIAL_ACTIVITIES).
Proof. reflexivity. Qed.

(** ** Facts about the collection operations *)

Section MongoFacts.

Context (activity_name : string).

Lemma matches_true d : Mongo.matches activity_name d = true ↔ name d = Some activity_name.
Proof. unfold Mongo.matches. by rewrite bool_decide_eq_true. Qed.

Lemma matches_false d : Mongo.matches activity_name d = false ↔ name d ≠ Some activity_name.
Proof. unfold Mongo.matches. by rewrite bool_decide_eq_false. Qed.

Lemma find_one_Some col d :
  Mongo.find_one activity_name col = Some d → name d = Some activity_name ∧ d ∈ col.
Proof.
  induction col as [|d' rest IH]; simpl; [done|].
  destruct (Mongo.matches activity_name d') eqn:E.
  - intros [= ->]. apply matches_true in E. split; [done | left].
  - intros H. destruct (IH H). split; [done | by right].
Qed.

Lemma find_one_None col :
  Mongo.find_one activity_name col = None ↔ ∀ d, d ∈ col → name d ≠ Some activity_name.
Proof.
  induction col as [|d' rest IH]; simpl.
  - split; [|done]. intros _ d Hd. by apply not_elem_of_nil in Hd.
  - destruct (Mongo.matches activity_name d') eqn:E.
    + split; [done|]. intros H. apply matches_true in E.
      exfalso. apply (H d'); [left | done].
    + rewrite IH. apply matches_false in E. split.
      * intros H d [->|Hd]%elem_of_cons; auto.
      * intros H d Hd. apply H. by right.
Qed.

(** The document changed by [update_one] is the one [find_one] returns,
    at its position; every other position keeps its document. *)
Lemma update_one_found update col d :
  Mongo.find_one activity_name col = Some d →
  ∃ i, col !! i = Some d ∧ Mongo.update_one activity_name update col = <[i := update d]> col.
Proof.
  induction col as [|d' rest IH]; simpl; [done|].
  destruct (Mongo.matches activity_name d') eqn:E.
  - intros [= ->]. by exists 0.
  - intros H. destruct (IH H) as (i & Hi & ->). by exists (S i).
Qed.

Lemma update_one_not_found update col :
  Mongo.find_one activity_name col = None →
  Mongo.update_one activity_name update col = col.
Proof.
  induction col as [|d' rest IH]; simpl; [done|].
  destruct (Mongo.matches activity_name d'); [done|].
  intros H. by rewrite IH.
Qed.

Lemma find_one_update_one update col :
  (∀ d, name (update d) = name d) →
  Mongo.find_one activity_name (Mongo.update_one activity_name update col)
  = update <$> Mongo.find_one activity_name col.
Proof.
  intros Hname. induction col as [|d' rest IH]; simpl; [done|].
  destruct (Mongo.matches activity_name d') eqn:E; simpl.
  - apply matches_true in E.
    assert (Mongo.matches activity_name (update d') = true) as ->; [|done].
    apply matches_true. by rewrite Hname.
  - by rewrite E.
Qed.

Lemma update_one_Forall (P : document → Prop) update col :
  Forall P col →
  (∀ d, Mongo.find_one activity_name col = Some d → P d → P (update d)) →
  Forall P (Mongo.update_one activity_name update col).
Proof.
  induction 1 as [|d' rest Hd Hrest IH]; simpl; [constructor|].
  destruct (Mongo.matches activity_name d') eqn:E; intros Hupd.
  - constructor; [by apply Hupd | done].
  - constructor; [done | by apply IH].
Qed.

End MongoFacts.

(** ** Sign-up and unregistration *)

Ltac run_handler :=
  unfold signup_for_activity, unregister_from_activity, bind, find_one,
    update_one, raise, ret; simpl.

(** C1: when the named activity exists, the email is already one of its
    participants and the activity is full, sign-up raises HTTP 400 with
    detail "Student is already signed up" (the duplicate check runs before
    the capacity check), and not "No spots available". *)
Theorem signup_duplicate_precedes_capacity activity_name email col activity :
  Mongo.find_one activity_name col = Some activity →
  email ∈ get_participants activity →
  (Z.of_nat (length (get_participants activity)) >= get_max_participants activity)%Z →
  signup_for_activity activity_name email col
  = (Raise {| status_code := 400; detail := "Student is already signed up" |}, col).
Proof.
  intros Hfind Hin _. run_handler. rewrite Hfind.
  by rewrite bool_decide_eq_true_2.
Qed.

Lemma signup_duplicate_precedes_capacity_witness :
  signup_for_activity "Chess Club" "daniel@mergington.edu" [full_chess_club]
  = (Raise {| status_code := 400; detail := "Student is already signed up" |},
     [full_chess_club]).
Proof.
  apply (signup_duplicate_precedes_capacity _ _ _ full_chess_club).
  - reflexivity.
  - right. left.
  - by vm_compute.
Defined.

(** C2: when the named activity exists, the email is not among its
    participants and fewer than [max_participants] are enrolled, sign-up
    returns the message "Signed up {email} for {activity_name}" and the
    stored activity gets the email appended at the end of its participants;
    no other document changes. *)
Theorem signup_appends activity_name email col activity :
  Mongo.find_one activity_name col = Some activity →
  email ∉ get_participants activity →
  (Z.of_nat (length (get_participants activity)) < get_max_participants activity)%Z →
  ∃ i activity',
    col !! i = Some activity ∧
    signup_for_activity activity_name email col
    = (Return {[ "message" := "Signed up " +:+ email +:+ " for " +:+ activity_name ]},
       <[i := activity']> col) ∧
    Mongo.find_one activity_name (<[i := activity']> col) = Some activity' ∧
    get_participants activity' = (get_participants activity ++ [email])%list ∧
    name activity' = name activity ∧
    description activity' = description activity ∧
    schedule activity' = schedule activity ∧
    max_participants activity' = max_participants activity.
Proof.
  intros Hfind Hin Hcap.
  destruct (update_one_found activity_name (Mongo.push email) col activity Hfind)
    as (i & Hi & Hupd).
  exists i, (Mongo.push email activity). split; [done|].
  split; [|split; [|done]].
  - run_handler. rewrite Hfind.
    rewrite bool_decide_eq_false_2 by done.
    assert ((Z.of_nat (length (get_participants activity))
             >=? get_max_participants activity)%Z = false) as -> by lia.
    by rewrite Hupd.
  - rewrite <- Hupd, find_one_update_one by done. by rewrite Hfind.
Qed.

Lemma signup_appends_witness :
  ∃ i activity',
    INITIAL_ACTIVITIES !! i
    = Mongo.find_one "Math Club" INITIAL_ACTIVITIES ∧
    signup_for_activity "Math Club" "alice@mergington.edu" INITIAL_ACTIVITIES
    = (Return {[ "message" := "Signed up alice@mergington.edu for Math Club" ]},
       <[i := activity']> INITIAL_ACTIVITIES) ∧
    get_participants activity'
    = ["james@mergington.edu"; "benjamin@mergington.edu"; "alice@mergington.edu"].
Proof.
  destruct (signup_appends "Math Club" "alice@mergington.edu" INITIAL_ACTIVITIES
    {| name := Some "Math Club";
       description := Some "Solve challenging problems and participate in math competitions";
       schedule := Some "Tuesdays, 3:30 PM - 4:30 PM";
       max_participants := Some 10%Z;
       participants := Some ["james@mergington.edu"; "benjamin@mergington.edu"] |})
    as (i & activity' & Hi & Hrun & _ & Hps & _).
  - reflexivity.
  - by apply (bool_decide_unpack _).
  - by vm_compute.
  - exists i, activity'. by rewrite Hi, Hrun, Hps.
Defined.

(** C3: unregistration raises 404 "Activity not found" when no stored
    activity has the given name, raises 400 "Student is not signed up for
    this activity" when the activity found does not list the email, and
    otherwise removes the email from that activity's participants and
    returns the message "Unregistered {email} from {activity_name}". *)
Theorem unregister_cases activity_name email col :
  ((∀ d, d ∈ col → name d ≠ Some activity_name) →
   unregister_from_activity activity_name email col
   = (Raise {| status_code := 404; detail := "Activity not found" |}, col)) ∧
  (∀ activity,
     Mongo.find_one activity_name col = Some activity →
     email ∉ get_participants activity →
     unregister_from_activity activity_name email col
     = (Raise {| status_code := 400;
                 detail := "Student is not signed up for this activity" |}, col)) ∧
  (∀ activity,
     Mongo.find_one activity_name col = Some activity →
     email ∈ get_participants activity →
     ∃ i activity',
       col !! i = Some activity ∧
       unregister_from_activity activity_name email col
       = (Return {[ "message" := "Unregistered " +:+ email +:+ " from " +:+ activity_name ]},
          <[i := activity']> col) ∧
       Mongo.find_one activity_name (<[i := activity']> col) = Some activity' ∧
       get_participants activity' = filter (λ p, p ≠ email) (get_participants activity) ∧
       (email ∉ get_participants activity') ∧
       name activity' = name activity ∧
       description activity' = description activity ∧
       schedule activity' = schedule activity ∧
       max_participants activity' = max_participants activity).
Proof.
  split; [|split].
  - intros Hnone. apply find_one_None in Hnone. run_handler. by rewrite Hnone.
  - intros activity Hfind Hin. run_handler. rewrite Hfind.
    by rewrite bool_decide_eq_true_2.
  - intros activity Hfind Hin.
    destruct (update_one_found activity_name (Mongo.pull email) col activity Hfind)
      as (i & Hi & Hupd).
    assert (get_participants (Mongo.pull email activity)
            = filter (λ p, p ≠ email) (get_participants activity)) as Hps.
    { unfold get_participants. simpl. by destruct (participants activity). }
    exists i, (Mongo.pull email activity). split; [done|].
    split; [|split; [|split; [done|split; [|done]]]].
    + run_handler. rewrite Hfind.
      rewrite bool_decide_eq_false_2 by (intros Hnot; by apply Hnot).
      by rewrite Hupd.
    + rewrite <- Hupd, find_one_update_one by done. by rewrite Hfind.
    + rewrite Hps. by intros [Hne _]%list_elem_of_filter.
Qed.

Lemma unregister_cases_witness :
  unregister_from_activity "Knitting Circle" "james@mergington.edu" INITIAL_ACTIVITIES
  = (Raise {| status_code := 404; detail := "Activity not found" |},
     INITIAL_ACTIVITIES) ∧
  unregister_from_activity "Math Club" "bob@mergington.edu" INITIAL_ACTIVITIES
  = (Raise {| status_code := 400;
              detail := "Student is not signed up for this activity" |},
     INITIAL_ACTIVITIES) ∧
  ∃ i activity',
    unregister_from_activity "Math Club" "james@mergington.edu" INITIAL_ACTIVITIES
    = (Return {[ "message" := "Unregistered james@mergington.edu from Math Club" ]},
       <[i := activity']> INITIAL_ACTIVITIES) ∧
    get_participants activity' = ["benjamin@mergington.edu"].
Proof.
  split; [|split].
  - apply (unregister_cases "Knitting Circle" "james@mergington.edu" INITIAL_ACTIVITIES).
    apply (Forall_forall (λ d, name d ≠ Some "Knitting Circle")).
    repeat constructor; by vm_compute.
  - destruct (unregister_cases "Math Club" "bob@mergington.edu" INITIAL_ACTIVITIES)
      as (_ & Hmissing & _).
    eapply Hmissing; [reflexivity|]. by apply (bool_decide_unpack _).
  - destruct (unregister_cases "Math Club" "james@mergington.edu" INITIAL_ACTIVITIES)
      as (_ & _ & Hpresent).
    destruct (Hpresent _ eq_refl) as (i & activity' & _ & Hrun & _ & Hps & _).
    + left.
    + exists i, activity'. by rewrite Hrun, Hps.
Defined.

(** C4: a sign-up or unregistration that fails raises 404 or 400 and leaves
    the whole collection exactly as it was. *)
Theorem failed_request_keeps_collection r col e :
  (dispatch r col).1 = Raise e →
  (dispatch r col).2 = col ∧ (status_code e = 404 ∨ status_code e = 400)%Z.
Proof.
  destruct r as [activity_name email | activity_name email]; simpl; run_handler.
  - destruct (Mongo.find_one activity_name col) as [activity|]; simpl.
    + destruct (bool_decide _); simpl; [intros [= <-]; auto|].
      destruct (_ >=? _)%Z; simpl; [intros [= <-]; auto | done].
    + intros [= <-]; auto.
  - destruct (Mongo.find_one activity_name col) as [activity|]; simpl.
    + destruct (bool_decide _); simpl; [intros [= <-]; auto | done].
    + intros [= <-]; auto.
Qed.

Lemma failed_request_keeps_collection_witness :
  (dispatch (Signup "Chess Club" "michael@mergington.edu") INITIAL_ACTIVITIES).2
  = INITIAL_ACTIVITIES.
Proof.
  eapply (failed_request_keeps_collection
            (Signup "Chess Club" "michael@mergington.edu") INITIAL_ACTIVITIES).
  reflexivity.
Defined.

(** ** Start-up seeding *)

(** C5: the initializer inserts the seed data exactly when the collection
    holds no document; on a non-empty collection it writes nothing, so any
    number of start-ups leaves a non-empty collection as it is. *)
Theorem seed_only_when_empty col :
  (Mongo.count_documents col = 0 →
   seed_activities_if_empty col = (Return tt, INITIAL_ACTIVITIES)) ∧
  (Mongo.count_documents col ≠ 0 →
   seed_activities_if_empty col = (Return tt, col) ∧
   ∀ n, Nat.iter n startup col = col) ∧
  (seed_activities_if_empty col).2
  = (if decide (Mongo.count_documents col = 0)
     then Mongo.insert_many INITIAL_ACTIVITIES col else col).
Proof.
  unfold seed_activities_if_empty, bind, count_documents, insert_many, ret.
  unfold Mongo.count_documents. split; [|split].
  - intros Hlen. rewrite bool_decide_eq_true_2 by done.
    apply length_zero_iff_nil in Hlen as ->. done.
  - intros Hlen. rewrite bool_decide_eq_false_2 by done. split; [done|].
    induction n as [|n IH]; simpl; [done|]. rewrite IH.
    unfold startup, on_startup, try_pass, seed_activities_if_empty, bind,
      count_documents, ret. unfold Mongo.count_documents.
    by rewrite bool_decide_eq_false_2.
  - case_decide as Hlen.
    + by rewrite bool_decide_eq_true_2.
    + by rewrite bool_decide_eq_false_2.
Qed.

Lemma seed_only_when_empty_witness :
  seed_activities_if_empty [] = (Return tt, INITIAL_ACTIVITIES) ∧
  Nat.iter 3 startup [full_chess_club] = [full_chess_club].
Proof.
  split.
  - by apply (seed_only_when_empty []).
  - destruct (seed_only_when_empty [full_chess_club]) as (_ & Hfull & _).
    destruct Hfull as [_ Hiter]; [by vm_compute | apply Hiter].
Defined.

Example startup_twice_on_empty_store :
  startup (startup []) = INITIAL_ACTIVITIES.
Proof. reflexivity. Qed.

(** ** The seed catalog *)

(** C6: the seed data is the specification's catalog: nine activities in
    the catalog's order, each with the listed name, description, schedule
    and capacity and exactly its two listed participants; and it is what
    the first start-up stores. *)
Theorem seed_data_is_catalog :
  INITIAL_ACTIVITIES = SPEC_CATALOG ∧
  length INITIAL_ACTIVITIES = 9 ∧
  Forall (λ d, length (get_participants d) = 2) INITIAL_ACTIVITIES ∧
  INITIAL_ACTIVITIES !! 0
  = Some {| name := Some "Chess Club";
            description := Some "Learn strategies and compete in chess tournaments";
            schedule := Some "Fridays, 3:30 PM - 5:00 PM";
            max_participants := Some 12%Z;
            participants := Some ["michael@mergington.edu"; "daniel@mergington.edu"] |} ∧
  seeded = SPEC_CATALOG.
Proof.
  split; [reflexivity|]. split; [reflexivity|]. split; [|split; reflexivity].
  repeat constructor.
Qed.

(** ** Listing the activities *)

Lemma get_activities_step_lookup result d n :
  get_activities_step result d !! n
  = if decide (listed_as n d) then Some (entry d) else result !! n.
Proof.
  unfold get_activities_step.
  case_decide as H.
  - destruct H as [Hname Hne]. rewrite Hname.
    rewrite bool_decide_eq_false_2 by done. by rewrite lookup_insert_eq.
  - destruct (name d) as [m|] eqn:Hm; [|done].
    case_bool_decide as Hempty; [done|].
    rewrite lookup_insert_ne; [done|].
    intros ->. apply H. by split.
Qed.

Lemma get_activities_loop_lookup docs result n :
  foldl get_activities_step result docs !! n
  = match last (filter (listed_as n) docs) with
    | Some d => Some (entry d)
    | None => result !! n
    end.
Proof.
  revert result. induction docs as [|d docs IH]; intros result; simpl; [done|].
  rewrite IH, get_activities_step_lookup, filter_cons.
  case_decide as H; [|done].
  rewrite last_cons. by destruct (last (filter (listed_as n) docs)).
Qed.

Lemma get_activities_loop_skips docs result :
  foldl get_activities_step result (filter has_name docs)
  = foldl get_activities_step result docs.
Proof.
  revert result. induction docs as [|d docs IH]; intros result; [done|].
  rewrite filter_cons. case_decide as H; simpl; [apply IH|].
  rewrite IH. f_equal. unfold get_activities_step.
  destruct (name d) as [m|] eqn:Hm; [|done].
  case_bool_decide as Hempty; [done|].
  exfalso. apply H. unfold has_name. rewrite Hm. split; congruence.
Qed.

Lemma entry_fields d :
  dom (entry d)
  = ({[ "description"; "schedule"; "max_participants"; "participants" ]} : gset string) ∧
  entry d !! "description" = Some (JStr (default "" (description d))) ∧
  entry d !! "schedule" = Some (JStr (default "" (schedule d))) ∧
  entry d !! "max_participants" = Some (JInt (default 0%Z (max_participants d))) ∧
  entry d !! "participants" = Some (JList (default [] (participants d))).
Proof.
  split; [|done].
  unfold entry. rewrite !dom_insert_L, dom_singleton_L. set_solver.
Qed.

(** C7: for every collection, GET /activities returns (without changing
    the collection) a mapping keyed by activity name; the entry under a
    name is built from the last stored record of that name and has exactly
    the fields description, schedule, max_participants and participants,
    absent ones defaulting to "", "", 0 and []; records whose name is
    absent or empty contribute nothing. *)
Theorem get_activities_entries col :
  ∃ result,
    get_activities col = (Return result, col) ∧
    (∀ n, result !! n = entry <$> last (filter (listed_as n) col)) ∧
    (∀ n e, result !! n = Some e →
       n ≠ "" ∧
       (∃ d, d ∈ col ∧ name d = Some n ∧ e = entry d) ∧
       dom e = ({[ "description"; "schedule"; "max_participants"; "participants" ]}
                : gset string)) ∧
    (∀ d,
       entry d !! "description" = Some (JStr (default "" (description d))) ∧
       entry d !! "schedule" = Some (JStr (default "" (schedule d))) ∧
       entry d !! "max_participants" = Some (JInt (default 0%Z (max_participants d))) ∧
       entry d !! "participants" = Some (JList (default [] (participants d)))) ∧
    (∀ d n, d ∈ col → name d = Some n → n ≠ "" → is_Some (result !! n)) ∧
    (get_activities (filter has_name col)).1 = Return result.
Proof.
  exists (foldl get_activities_step ∅ col).
  assert (∀ n, foldl get_activities_step ∅ col !! n
               = entry <$> last (filter (listed_as n) col)) as Hlookup.
  { intros n. rewrite get_activities_loop_lookup.
    by destruct (last (filter (listed_as n) col)). }
  split; [done|]. split; [done|]. split; [|split; [|split]].
  - intros n e. rewrite Hlookup.
    destruct (last (filter (listed_as n) col)) as [d|] eqn:Hlast; [|done].
    intros [= <-]. apply last_Some_elem_of in Hlast.
    apply list_elem_of_filter in Hlast as [[Hname Hne] Hd].
    split; [done|]. split; [by exists d | apply entry_fields].
  - intros d. apply entry_fields.
  - intros d n Hd Hname Hne. rewrite Hlookup.
    destruct (last (filter (listed_as n) col)) as [d'|] eqn:Hlast; [by eexists|].
    apply last_None in Hlast.
    assert (d ∈ filter (listed_as n) col) as Hin
      by (apply list_elem_of_filter; by repeat split).
    rewrite Hlast in Hin. by apply not_elem_of_nil in Hin.
  - unfold get_activities, bind, find, ret, Mongo.find. simpl.
    by rewrite get_activities_loop_skips.
Qed.

Example get_activities_sparse :
  get_activities sparse_collection
  = (Return {[ "Robotics" := {[ "description" := JStr "";
                                "schedule" := JStr "";
                                "max_participants" := JInt 0;
                                "participants" := JList [] ]} ]},
     sparse_collection).
Proof. reflexivity. Qed.

Lemma get_activities_entries_witness :
  ∃ result,
    get_activities sparse_collection = (Return result, sparse_collection) ∧
    result !! "" = None ∧
    (∀ e, result !! "Robotics" = Some e →
       dom e = ({[ "description"; "schedule"; "max_participants"; "participants" ]}
                : gset string)).
Proof.
  destruct (get_activities_entries sparse_collection)
    as (result & Hrun & Hlookup & Hentry & _).
  exists result. split; [done|]. split.
  - by rewrite Hlookup.
  - intros e He. by apply (Hentry "Robotics" e).
Defined.

(** ** Invariants under sign-up and unregistration *)

Lemma get_participants_push email d :
  get_participants (Mongo.push email d) = (get_participants d ++ [email])%list.
Proof. done. Qed.

Lemma get_participants_pull email d :
  get_participants (Mongo.pull email d)
  = filter (λ p, p ≠ email) (get_participants d).
Proof. unfold get_participants. simpl. by destruct (participants d). Qed.

Lemma serve_effect col r : effect col r (serve col r).
Proof.
  unfold serve.
  destruct r as [activity_name email | activity_name email]; simpl; run_handler.
  - destruct (Mongo.find_one activity_name col) as [activity|] eqn:Hfind; simpl;
      [|constructor].
    case_bool_decide as Hin; simpl; [constructor|].
    destruct (_ >=? _)%Z eqn:Hcap; simpl; [constructor|].
    eapply effect_push; [done.. | lia].
  - destruct (Mongo.find_one activity_name col) as [activity|] eqn:Hfind; simpl;
      [|constructor].
    case_bool_decide as Hin; simpl; [constructor|].
    by eapply effect_pull.
Qed.

Lemma serve_unique_participants col r :
  Forall unique_participants col → Forall unique_participants (serve col r).
Proof.
  intros Hcol. destruct (serve_effect col r) as [| n e a Hfind Hnew Hcap | n e a Hfind Hin];
    [done | |]; apply update_one_Forall; try done; unfold unique_participants.
  - intros d Hd Hnodup. rewrite Hfind in Hd. injection Hd as <-.
    rewrite get_participants_push. apply NoDup_app. split; [done|].
    split; [|apply NoDup_singleton].
    intros p Hp ->%list_elem_of_singleton. done.
  - intros d _ Hnodup. rewrite get_participants_pull. by apply NoDup_filter.
Qed.

Lemma serve_within_capacity col r :
  Forall within_capacity col → Forall within_capacity (serve col r).
Proof.
  intros Hcol. destruct (serve_effect col r) as [| n e a Hfind Hnew Hcap | n e a Hfind Hin];
    [done | |]; apply update_one_Forall; try done; unfold within_capacity.
  - intros d Hd _. rewrite Hfind in Hd. injection Hd as <-.
    rewrite get_participants_push, length_app. simpl.
    unfold get_max_participants in *. simpl. lia.
  - intros d _ Hle. rewrite get_participants_pull.
    pose proof (length_filter (λ p, p ≠ e) (get_participants d)).
    unfold get_max_participants in *. simpl. lia.
Qed.

(** C8: in every state reached from the seeded data by a sequence of
    sign-ups and unregistrations, no activity lists an email twice; each
    single request preserves that property of a collection. *)
Theorem unique_participants_reachable :
  (∀ rs, Forall unique_participants (serve_all rs seeded)) ∧
  (∀ col r, Forall unique_participants col → Forall unique_participants (serve col r)).
Proof.
  split; [|apply serve_unique_participants].
  assert (∀ rs col, Forall unique_participants col →
                    Forall unique_participants (serve_all rs col)) as Hall.
  { induction rs as [|r rs IH]; intros col Hcol; simpl; [done|].
    apply IH. by apply serve_unique_participants. }
  intros rs. apply Hall.
  repeat constructor; unfold unique_participants; simpl;
    by apply (bool_decide_unpack _).
Qed.

Lemma unique_participants_reachable_witness :
  Forall unique_participants
    (serve_all [Signup "Chess Club" "alice@mergington.edu";
                Signup "Chess Club" "alice@mergington.edu";
                Unregister "Chess Club" "michael@mergington.edu"] seeded) ∧
  Forall unique_participants
    (serve [full_chess_club] (Signup "Chess Club" "daniel@mergington.edu")).
Proof.
  destruct unique_participants_reachable as [Hreach Hstep]. split.
  - apply Hreach.
  - apply Hstep. repeat constructor; unfold unique_participants; simpl;
      by apply (bool_decide_unpack _).
Defined.

(** C9: if every activity of the collection has at most [max_participants]
    participants, the same holds after any sign-up or unregistration, and
    so after any sequence of them. *)
Theorem within_capacity_preserved col rs :
  Forall within_capacity col → Forall within_capacity (serve_all rs col).
Proof.
  revert col. induction rs as [|r rs IH]; intros col Hcol; simpl; [done|].
  apply IH. by apply serve_within_capacity.
Qed.

Lemma within_capacity_preserved_witness :
  Forall within_capacity seeded ∧
  Forall within_capacity
    (serve_all [Signup "Math Club" "alice@mergington.edu"] seeded) ∧
  Forall within_capacity
    (serve_all [Signup "Chess Club" "alice@mergington.edu";
                Unregister "Chess Club" "daniel@mergington.edu"] [full_chess_club]).
Proof.
  assert (Forall within_capacity seeded) as Hseeded
    by (repeat constructor; by vm_compute).
  split; [done|]. split.
  - by apply within_capacity_preserved.
  - apply within_capacity_preserved. repeat constructor; by vm_compute.
Defined.

(** ** Sign-up followed by unregistration *)

Lemma update_one_update_one activity_name f g col :
  (∀ d, name (f d) = name d) →
  Mongo.update_one activity_name g (Mongo.update_one activity_name f col)
  = Mongo.update_one activity_name (g ∘ f) col.
Proof.
  intros Hname. induction col as [|d rest IH]; simpl; [done|].
  destruct (Mongo.matches activity_name d) eqn:E; simpl.
  - assert (Mongo.matches activity_name (f d) = true) as ->; [|done].
    apply matches_true. rewrite Hname. by apply matches_true.
  - by rewrite E, IH.
Qed.

Lemma filter_out_appended (email : string) (l : list string) :
  email ∉ l → filter (λ p, p ≠ email) (l ++ [email])%list = l.
Proof.
  intros Hnew. rewrite filter_app, filter_cons, filter_nil.
  rewrite decide_False by (intros Hne; by apply Hne).
  rewrite app_nil_r. induction l as [|p l IH]; [done|].
  apply not_elem_of_cons in Hnew as [Hne Hnew].
  rewrite filter_cons, decide_True by done. by rewrite IH.
Qed.

(** C10: when the activity found lists fewer than [max_participants]
    participants and not the email, signing the email up and then
    unregistering it both succeed and every activity's participants list
    is what it was before; the collection itself is restored when the
    activity had a participants field. *)
Theorem signup_then_unregister activity_name email col activity :
  Mongo.find_one activity_name col = Some activity →
  email ∉ get_participants activity →
  (Z.of_nat (length (get_participants activity)) < get_max_participants activity)%Z →
  ∃ col1 col2 activity2,
    signup_for_activity activity_name email col
    = (Return {[ "message" := "Signed up " +:+ email +:+ " for " +:+ activity_name ]},
       col1) ∧
    unregister_from_activity activity_name email col1
    = (Return {[ "message" := "Unregistered " +:+ email +:+ " from " +:+ activity_name ]},
       col2) ∧
    Mongo.find_one activity_name col2 = Some activity2 ∧
    get_participants activity2 = get_participants activity ∧
    get_participants <$> col2 = get_participants <$> col ∧
    (is_Some (participants activity) → col2 = col).
Proof.
  intros Hfind Hnew Hcap.
  set (col1 := Mongo.update_one activity_name (Mongo.push email) col).
  set (col2 := Mongo.update_one activity_name (Mongo.pull email) col1).
  assert (Mongo.find_one activity_name col1 = Some (Mongo.push email activity)) as Hfind1.
  { unfold col1. rewrite find_one_update_one by done. by rewrite Hfind. }
  assert (Mongo.find_one activity_name col2
          = Some (Mongo.pull email (Mongo.push email activity))) as Hfind2.
  { unfold col2. rewrite find_one_update_one by done. by rewrite Hfind1. }
  assert (get_participants (Mongo.pull email (Mongo.push email activity))
          = get_participants activity) as Hps.
  { rewrite get_participants_pull, get_participants_push.
    by apply filter_out_appended. }
  destruct (update_one_found activity_name (Mongo.pull email ∘ Mongo.push email)
              col activity Hfind) as (i & Hi & Hupd).
  assert (col2 = <[i := Mongo.pull email (Mongo.push email activity)]> col) as Hcol2.
  { unfold col2, col1. by rewrite update_one_update_one. }
  exists col1, col2, (Mongo.pull email (Mongo.push email activity)).
  split; [|split; [|split; [done|split; [done|split]]]].
  - run_handler. rewrite Hfind.
    rewrite bool_decide_eq_false_2 by done.
    by assert ((Z.of_nat (length (get_participants activity))
                >=? get_max_participants activity)%Z = false) as -> by lia.
  - run_handler. rewrite Hfind1.
    rewrite bool_decide_eq_false_2; [done|].
    intros Hnot. apply Hnot. rewrite get_participants_push.
    apply elem_of_app. right. left.
  - rewrite Hcol2, list_fmap_insert, Hps.
    apply list_insert_id. by rewrite list_lookup_fmap, Hi.
  - intros [ps Hfield]. rewrite Hcol2. apply list_insert_id. rewrite Hi. f_equal.
    destruct activity as [n desc sched maxp ops]. simpl in Hfield. subst ops.
    unfold Mongo.pull, Mongo.push, get_participants in *. simpl in *.
    by rewrite filter_out_appended.
Qed.

Lemma signup_then_unregister_witness :
  ∃ col1,
    signup_for_activity "Art Club" "alice@mergington.edu" INITIAL_ACTIVITIES
    = (Return {[ "message" := "Signed up alice@mergington.edu for Art Club" ]}, col1) ∧
    unregister_from_activity "Art Club" "alice@mergington.edu" col1
    = (Return {[ "message" := "Unregistered alice@mergington.edu from Art Club" ]},
       INITIAL_ACTIVITIES).
Proof.
  destruct (signup_then_unregister "Art Club" "alice@mergington.edu" INITIAL_ACTIVITIES
    {| name := Some "Art Club";
       description := Some "Explore your creativity through painting and drawing";
       schedule := Some "Thursdays, 3:30 PM - 5:00 PM";
       max_participants := Some 15%Z;
       participants := Some ["amelia@mergington.edu"; "harper@mergington.edu"] |})
    as (col1 & col2 & activity2 & Hsignup & Hunregister & _ & _ & _ & Hsame).
  - reflexivity.
  - by apply (bool_decide_unpack _).
  - by vm_compute.
  - exists col1. split; [done|]. rewrite Hunregister. f_equal. apply Hsame. by eexists.
Defined.

(** An activity stored without a participants field: the round trip leaves
    it with an empty list instead of no field. *)
Example roundtrip_creates_participants_field :
  let robotics := {| name := Some "Robotics"; description := None; schedule := None;
                     max_participants := Some 3%Z; participants := None |} in
  (unregister_from_activity "Robotics" "alice@mergington.edu"
     (signup_for_activity "Robotics" "alice@mergington.edu" [robotics]).2).2
  = [ {| name := Some "Robotics"; description := None; schedule := None;
         max_participants := Some 3%Z; participants := Some [] |} ].
Proof. reflexivity. Qed.


(** * Further properties of the handlers *)

(** ** The handlers as case analyses on the document found *)

Lemma signup_run activity_name email col :
  signup_for_activity activity_name email col
  = match Mongo.find_one activity_name col with
    | None => (Raise {| status_code := 404; detail := "Activity not found" |}, col)
    | Some activity =>
        if bool_decide (email ∈ get_participants activity) then
          (Raise {| status_code := 400; detail := "Student is already signed up" |}, col)
        else if (Z.of_nat (length (get_participants activity))
                 >=? get_max_participants activity)%Z then
          (Raise {| status_code := 400; detail := "No spots available" |}, col)
        else
          (Return {[ "message" := "Signed up " +:+ email +:+ " for " +:+ activity_name ]},
           Mongo.update_one activity_name (Mongo.push email) col)
    end.
Proof.
  run_handler. destruct (Mongo.find_one activity_name col) as [activity|]; [|done].
  simpl. destruct (bool_decide _); [done|]. by destruct (_ >=? _)%Z.
Qed.

Lemma unregister_run activity_name email col :
  unregister_from_activity activity_name email col
  = match Mongo.find_one activity_name col with
    | None => (Raise {| status_code := 404; detail := "Activity not found" |}, col)
    | Some activity =>
        if bool_decide (email ∈ get_participants activity) then
          (Return {[ "message" := "Unregistered " +:+ email +:+ " from " +:+ activity_name ]},
           Mongo.update_one activity_name (Mongo.pull email) col)
        else
          (Raise {| status_code := 400;
                    detail := "Student is not signed up for this activity" |}, col)
    end.
Proof.
  run_handler. destruct (Mongo.find_one activity_name col) as [activity|]; [|done].
  simpl. case_bool_decide as Hnot; case_bool_decide as Hin; done.
Qed.

Lemma signup_success_inv activity_name email col msg :
  (signup_for_activity activity_name email col).1 = Return msg →
  ∃ activity,
    Mongo.find_one activity_name col = Some activity ∧
    (email ∉ get_participants activity) ∧
    (Z.of_nat (length (get_participants activity)) < get_max_participants activity)%Z ∧
    (signup_for_activity activity_name email col).2
    = Mongo.update_one activity_name (Mongo.push email) col.
Proof.
  rewrite signup_run.
  destruct (Mongo.find_one activity_name col) as [activity|]; [|done].
  case_bool_decide as Hin; [done|].
  destruct (_ >=? _)%Z eqn:Hcap; [done|].
  intros _. exists activity. repeat split; [done | lia].
Qed.

Lemma unregister_success_inv activity_name email col msg :
  (unregister_from_activity activity_name email col).1 = Return msg →
  ∃ activity,
    Mongo.find_one activity_name col = Some activity ∧
    email ∈ get_participants activity ∧
    (unregister_from_activity activity_name email col).2
    = Mongo.update_one activity_name (Mongo.pull email) col.
Proof.
  rewrite unregister_run.
  destruct (Mongo.find_one activity_name col) as [activity|]; [|done].
  case_bool_decide as Hin; [|done].
  intros _. by exists activity.
Qed.

(** ** Sign-up: the remaining outcomes *)

(** X1: signing up for a name no stored document carries (in particular on
    an empty collection) raises 404 "Activity not found" and writes
    nothing. *)
Theorem signup_unknown_activity activity_name email col :
  (∀ d, d ∈ col → name d ≠ Some activity_name) →
  signup_for_activity activity_name email col
  = (Raise {| status_code := 404; detail := "Activity not found" |}, col).
Proof.
  intros Hnone. apply find_one_None in Hnone. by rewrite signup_run, Hnone.
Qed.

Lemma signup_unknown_activity_witness :
  signup_for_activity "Chess Club" "alice@mergington.edu" []
  = (Raise {| status_code := 404; detail := "Activity not found" |}, []) ∧
  signup_for_activity "chess club" "alice@mergington.edu" INITIAL_ACTIVITIES
  = (Raise {| status_code := 404; detail := "Activity not found" |},
     INITIAL_ACTIVITIES).
Proof.
  split.
  - apply signup_unknown_activity. intros d Hd. by apply not_elem_of_nil in Hd.
  - apply signup_unknown_activity.
    apply (Forall_forall (λ d, name d ≠ Some "chess club")).
    repeat constructor; by vm_compute.
Defined.

(** X2: signing up an email the activity does not list, when the activity
    already has [max_participants] participants or more, raises 400 "No
    spots available" and writes nothing. *)
Theorem signup_no_spots activity_name email col activity :
  Mongo.find_one activity_name col = Some activity →
  email ∉ get_participants activity →
  (Z.of_nat (length (get_participants activity)) >= get_max_participants activity)%Z →
  signup_for_activity activity_name email col
  = (Raise {| status_code := 400; detail := "No spots available" |}, col).
Proof.
  intros Hfind Hnew Hfull. rewrite signup_run, Hfind.
  rewrite bool_decide_eq_false_2 by done.
  by assert ((Z.of_nat (length (get_participants activity))
              >=? get_max_participants activity)%Z = true) as -> by lia.
Qed.

Lemma signup_no_spots_witness :
  signup_for_activity "Chess Club" "alice@mergington.edu" [full_chess_club]
  = (Raise {| status_code := 400; detail := "No spots available" |},
     [full_chess_club]).
Proof.
  apply (signup_no_spots _ _ _ full_chess_club).
  - reflexivity.
  - by apply (bool_decide_unpack _).
  - by vm_compute.
Defined.

(** X3: sign-up returns a message exactly when the activity is found, does
    not list the email yet and has a free spot; in every other case it
    raises. *)
Theorem signup_succeeds_iff activity_name email col :
  (∃ msg, (signup_for_activity activity_name email col).1 = Return msg) ↔
  (∃ activity,
     Mongo.find_one activity_name col = Some activity ∧
     (email ∉ get_participants activity) ∧
     (Z.of_nat (length (get_participants activity)) < get_max_participants activity)%Z).
Proof.
  split.
  - intros [msg Hmsg].
    destruct (signup_success_inv _ _ _ _ Hmsg) as (activity & ? & ? & ? & _).
    by exists activity.
  - intros (activity & Hfind & Hnew & Hcap). rewrite signup_run, Hfind.
    rewrite bool_decide_eq_false_2 by done.
    assert ((Z.of_nat (length (get_participants activity))
             >=? get_max_participants activity)%Z = false) as -> by lia.
    by eexists.
Qed.

Lemma signup_succeeds_iff_witness :
  ∃ activity,
    Mongo.find_one "Gym Class" INITIAL_ACTIVITIES = Some activity ∧
    ("alice@mergington.edu" ∉ get_participants activity) ∧
    (Z.of_nat (length (get_participants activity)) < get_max_participants activity)%Z.
Proof.
  apply (signup_succeeds_iff "Gym Class" "alice@mergington.edu" INITIAL_ACTIVITIES).
  by eexists.
Defined.

(** X4: after a successful sign-up, signing the same email up for the same
    activity again raises 400 "Student is already signed up" and writes
    nothing. *)
Theorem signup_twice activity_name email col msg :
  (signup_for_activity activity_name email col).1 = Return msg →
  signup_for_activity activity_name email (signup_for_activity activity_name email col).2
  = (Raise {| status_code := 400; detail := "Student is already signed up" |},
     (signup_for_activity activity_name email col).2).
Proof.
  intros Hmsg.
  destruct (signup_success_inv _ _ _ _ Hmsg) as (activity & Hfind & _ & _ & ->).
  rewrite signup_run, find_one_update_one, Hfind by done. simpl.
  rewrite bool_decide_eq_true_2; [done|].
  rewrite get_participants_push. apply elem_of_app. right. left.
Qed.

Lemma signup_twice_witness :
  (signup_for_activity "Drama Club" "alice@mergington.edu"
     (signup_for_activity "Drama Club" "alice@mergington.edu" INITIAL_ACTIVITIES).2).1
  = Raise {| status_code := 400; detail := "Student is already signed up" |}.
Proof.
  by rewrite (signup_twice "Drama Club" "alice@mergington.edu" INITIAL_ACTIVITIES
                {[ "message" := "Signed up alice@mergington.edu for Drama Club" ]}).
Defined.

(** X5: after a successful unregistration, unregistering the same email from
    the same activity again raises 400 "Student is not signed up for this
    activity" and writes nothing. *)
Theorem unregister_twice activity_name email col msg :
  (unregister_from_activity activity_name email col).1 = Return msg →
  unregister_from_activity activity_name email
    (unregister_from_activity activity_name email col).2
  = (Raise {| status_code := 400;
              detail := "Student is not signed up for this activity" |},
     (unregister_from_activity activity_name email col).2).
Proof.
  intros Hmsg.
  destruct (unregister_success_inv _ _ _ _ Hmsg) as (activity & Hfind & _ & ->).
  rewrite unregister_run, find_one_update_one, Hfind by done. simpl.
  rewrite bool_decide_eq_false_2; [done|].
  rewrite get_participants_pull. by intros [Hne _]%list_elem_of_filter.
Qed.

Lemma unregister_twice_witness :
  (unregister_from_activity "Soccer Team" "liam@mergington.edu"
     (unregister_from_activity "Soccer Team" "liam@mergington.edu" INITIAL_ACTIVITIES).2).1
  = Raise {| status_code := 400;
             detail := "Student is not signed up for this activity" |}.
Proof.
  by rewrite (unregister_twice "Soccer Team" "liam@mergington.edu" INITIAL_ACTIVITIES
                {[ "message" := "Unregistered liam@mergington.edu from Soccer Team" ]}).
Defined.

(** ** Unregistration followed by sign-up *)

Lemma length_filter_out (email : string) (l : list string) :
  email ∈ l → length (filter (λ p, p ≠ email) l) < length l.
Proof.
  induction l as [|p l IH]; [by intros ?%not_elem_of_nil|].
  rewrite filter_cons. case_decide as Hp; simpl.
  - intros [->|Hin]%elem_of_cons; [done|]. specialize (IH Hin). lia.
  - intros _. pose proof (length_filter (λ p, p ≠ email) l). lia.
Qed.

Lemma length_filter_out_NoDup (email : string) (l : list string) :
  NoDup l → email ∈ l → S (length (filter (λ p, p ≠ email) l)) = length l.
Proof.
  induction 1 as [|p l Hp Hl IH]; [by intros ?%not_elem_of_nil|].
  rewrite filter_cons. case_decide as Hne; simpl.
  - intros [->|Hin]%elem_of_cons; [done|]. by rewrite IH.
  - intros _. subst p. f_equal. f_equal.
    clear IH Hl. induction l as [|q l IH]; [done|].
    apply not_elem_of_cons in Hp as [Hq Hp].
    rewrite filter_cons, decide_True by done. by rewrite IH.
Qed.

(** X6: when the activity found lists the email and holds at most
    [max_participants] participants, unregistering the email and then
    signing it up again both succeed; the email ends up last, the other
    participants keep their order, and when no email was listed twice the
    list is a permutation of the original. *)
Theorem unregister_then_signup activity_name email col activity :
  Mongo.find_one activity_name col = Some activity →
  email ∈ get_participants activity →
  within_capacity activity →
  ∃ col1 col2 activity2,
    unregister_from_activity activity_name email col
    = (Return {[ "message" := "Unregistered " +:+ email +:+ " from " +:+ activity_name ]},
       col1) ∧
    signup_for_activity activity_name email col1
    = (Return {[ "message" := "Signed up " +:+ email +:+ " for " +:+ activity_name ]},
       col2) ∧
    Mongo.find_one activity_name col2 = Some activity2 ∧
    get_participants activity2 = (others email activity ++ [email])%list ∧
    (NoDup (get_participants activity) →
     get_participants activity2 ≡ₚ get_participants activity).
Proof.
  intros Hfind Hin Hcap. unfold within_capacity in Hcap.
  set (col1 := Mongo.update_one activity_name (Mongo.pull email) col).
  assert (Mongo.find_one activity_name col1 = Some (Mongo.pull email activity)) as Hfind1.
  { unfold col1. rewrite find_one_update_one by done. by rewrite Hfind. }
  exists col1, (Mongo.update_one activity_name (Mongo.push email) col1),
    (Mongo.push email (Mongo.pull email activity)).
  split; [|split; [|split; [|split]]].
  - rewrite unregister_run, Hfind. by rewrite bool_decide_eq_true_2.
  - rewrite signup_run, Hfind1. rewrite get_participants_pull.
    rewrite bool_decide_eq_false_2 by (by intros [Hne _]%list_elem_of_filter).
    pose proof (length_filter_out email _ Hin) as Hlen.
    assert ((Z.of_nat (length (filter (λ p, p ≠ email) (get_participants activity)))
             >=? get_max_participants (Mongo.pull email activity))%Z = false) as ->;
      [|done].
    unfold get_max_participants in *. simpl. lia.
  - rewrite find_one_update_one by done. by rewrite Hfind1.
  - by rewrite get_participants_push, get_participants_pull.
  - intros Hnodup. rewrite get_participants_push, get_participants_pull.
    apply NoDup_Permutation; [|done|].
    + apply NoDup_app. split; [by apply NoDup_filter|].
      split; [|apply NoDup_singleton].
      intros p [Hne _]%list_elem_of_filter ->%list_elem_of_singleton. done.
    + intros p. rewrite elem_of_app, list_elem_of_filter, list_elem_of_singleton.
      destruct (decide (p = email)) as [->|Hne].
      * split; [by intros _ | intros _; by right].
      * split; [by intros [[_ Hp]|Heq] | intros Hp; by left].
Qed.

Lemma unregister_then_signup_witness :
  ∃ col2 activity2,
    (signup_for_activity "Chess Club" "michael@mergington.edu"
       (unregister_from_activity "Chess Club" "michael@mergington.edu"
          [full_chess_club]).2).2 = col2 ∧
    Mongo.find_one "Chess Club" col2 = Some activity2 ∧
    get_participants activity2 = ["daniel@mergington.edu"; "michael@mergington.edu"].
Proof.
  destruct (unregister_then_signup "Chess Club" "michael@mergington.edu"
              [full_chess_club] full_chess_club)
    as (col1 & col2 & activity2 & Hout & Hin & Hfind & Hps & _).
  - reflexivity.
  - left.
  - by vm_compute.
  - exists col2, activity2. rewrite Hout. simpl. rewrite Hin. simpl.
    by rewrite Hfind, Hps.
Defined.

(** X7: a successful unregistration always shortens the activity's
    participants list, and by exactly one when the list had no repeated
    email. *)
Theorem unregister_shortens activity_name email col activity :
  Mongo.find_one activity_name col = Some activity →
  email ∈ get_participants activity →
  ∃ activity',
    Mongo.find_one activity_name (unregister_from_activity activity_name email col).2
    = Some activity' ∧
    length (get_participants activity') < length (get_participants activity) ∧
    (NoDup (get_participants activity) →
     S (length (get_participants activity')) = length (get_participants activity)).
Proof.
  intros Hfind Hin. exists (Mongo.pull email activity).
  rewrite unregister_run, Hfind, bool_decide_eq_true_2 by done. simpl.
  rewrite find_one_update_one, Hfind by done.
  rewrite get_participants_pull. split; [done|].
  split; [by apply length_filter_out|].
  intros Hnodup. by apply length_filter_out_NoDup.
Qed.

Lemma unregister_shortens_witness :
  ∃ activity',
    Mongo.find_one "Chess Club"
      (unregister_from_activity "Chess Club" "ann@mergington.edu" [doubled_club]).2
    = Some activity' ∧
    length (get_participants activity') < 3.
Proof.
  destruct (unregister_shortens "Chess Club" "ann@mergington.edu"
              [doubled_club] doubled_club) as (activity' & Hfind & Hlen & _).
  - reflexivity.
  - left.
  - by exists activity'.
Defined.

Example unregister_removes_every_copy :
  get_participants <$>
    (unregister_from_activity "Chess Club" "ann@mergington.edu" [doubled_club]).2
  = [["bob@mergington.edu"]].
Proof. reflexivity. Qed.

(** ** What requests leave alone *)

Lemma update_one_fmap {B} (view : document → B) activity_name update col :
  (∀ d, view (update d) = view d) →
  view <$> Mongo.update_one activity_name update col = view <$> col.
Proof.
  intros Hview. induction col as [|d rest IH]; simpl; [done|].
  destruct (Mongo.matches activity_name d); rewrite !fmap_cons.
  - by rewrite Hview.
  - by rewrite IH.
Qed.

Lemma update_one_lookup_other activity_name update col i d :
  col !! i = Some d → name d ≠ Some activity_name →
  Mongo.update_one activity_name update col !! i = Some d.
Proof.
  revert i. induction col as [|d' rest IH]; intros i; simpl; [done|].
  destruct (Mongo.matches activity_name d') eqn:E.
  - destruct i as [|i]; simpl; [|done].
    intros [= ->] Hne. by apply matches_true in E.
  - destruct i as [|i]; simpl; [done|]. apply IH.
Qed.

Lemma update_one_lookup_shadowed activity_name update col i j d' :
  j < i → col !! j = Some d' → name d' = Some activity_name →
  Mongo.update_one activity_name update col !! i = col !! i.
Proof.
  revert i j. induction col as [|d rest IH]; intros i j Hlt; simpl; [done|].
  destruct i as [|i]; [lia|].
  destruct (Mongo.matches activity_name d) eqn:E; simpl; [done|].
  destruct j as [|j]; simpl.
  - intros [= ->] Hname. by apply matches_false in E.
  - apply IH. lia.
Qed.

Lemma serve_catalog_fields col r :
  catalog_fields <$> serve col r = catalog_fields <$> col.
Proof.
  destruct (serve_effect col r); [done|..]; by apply update_one_fmap.
Qed.

(** X8: no sequence of sign-ups and unregistrations adds, removes or
    reorders documents, and none changes the name, description, schedule or
    max_participants of any document. *)
Theorem requests_keep_catalog rs col :
  catalog_fields <$> serve_all rs col = catalog_fields <$> col ∧
  length (serve_all rs col) = length col.
Proof.
  assert (catalog_fields <$> serve_all rs col = catalog_fields <$> col) as Hfields.
  { revert col. induction rs as [|r rs IH]; intros col; simpl; [done|].
    by rewrite IH, serve_catalog_fields. }
  split; [done|].
  by rewrite <- (length_fmap catalog_fields), Hfields, length_fmap.
Qed.

(** X9: a request changes nothing about any other email: in every
    document, the participants other than the request's email are the same,
    in the same order, before and after. *)
Theorem request_keeps_other_emails col r :
  others (request_email r) <$> serve col r = others (request_email r) <$> col.
Proof.
  destruct (serve_effect col r) as [| n e a _ _ _ | n e a _ _]; [done|..];
    simpl; apply update_one_fmap; intros d; unfold others.
  - rewrite get_participants_push, filter_app, filter_cons, filter_nil.
    rewrite decide_False by (intros Hne; by apply Hne). apply app_nil_r.
  - rewrite get_participants_pull. apply list_filter_filter_l. by intros p Hp.
Qed.

(** X10: a request leaves every document stored under another name (or
    under no name) exactly as it is. *)
Theorem request_keeps_other_activities col r i d :
  col !! i = Some d →
  name d ≠ Some (request_activity r) →
  serve col r !! i = Some d.
Proof.
  intros Hi Hname.
  destruct (serve_effect col r) as [| n e a _ _ _ | n e a _ _]; [done|..];
    by apply update_one_lookup_other.
Qed.

Lemma request_keeps_other_activities_witness :
  serve INITIAL_ACTIVITIES (Signup "Chess Club" "alice@mergington.edu") !! 7
  = INITIAL_ACTIVITIES !! 7.
Proof.
  by apply (request_keeps_other_activities INITIAL_ACTIVITIES
              (Signup "Chess Club" "alice@mergington.edu") 7).
Defined.

(** X11: a document that has no name, or that comes after another document
    of the same name, is never changed by any sequence of sign-ups and
    unregistrations: the handlers only ever reach the first document of a
    name. *)
Theorem shadowed_document_never_changes rs col i d :
  col !! i = Some d →
  (name d = None ∨ ∃ j d', j < i ∧ col !! j = Some d' ∧ name d' = name d) →
  serve_all rs col !! i = Some d.
Proof.
  revert col. induction rs as [|r rs IH]; intros col Hi Hshadow; simpl; [done|].
  assert (serve col r !! i = Some d) as Hstep.
  { destruct (decide (name d = Some (request_activity r))) as [Hname|Hname];
      [|by apply request_keeps_other_activities].
    destruct Hshadow as [Hnone | (j & d' & Hlt & Hj & Hsame)]; [congruence|].
    destruct (serve_effect col r) as [| n e a _ _ _ | n e a _ _]; [done|..];
      simpl in Hname; rewrite <- Hi;
      apply (update_one_lookup_shadowed _ _ _ _ j d'); congruence. }
  apply IH; [done|].
  destruct Hshadow as [Hnone | (j & d' & Hlt & Hj & Hsame)]; [by left | right].
  pose proof (serve_catalog_fields col r) as Hfields.
  apply (f_equal (λ l, l !! j)) in Hfields.
  rewrite !list_lookup_fmap, Hj in Hfields. simpl in Hfields.
  destruct (serve col r !! j) as [d''|] eqn:Hj'; [|done].
  exists j, d''. split; [done|]. split; [done|].
  injection Hfields as Hn _ _ _. congruence.
Qed.

Lemma shadowed_document_never_changes_witness :
  serve_all [Signup "Chess Club" "alice@mergington.edu";
             Unregister "Chess Club" "ann@mergington.edu"]
    [full_chess_club; doubled_club] !! 1
  = Some doubled_club.
Proof.
  apply shadowed_document_never_changes; [reflexivity|].
  right. exists 0, full_chess_club. split; [lia|]. by split.
Defined.

(** ** Start-up, on any collection *)

(** X12: the start-up hook never raises, keeps every stored document where
    it is (it can only add documents after them), and running it a second
    time changes nothing. *)
Theorem startup_idempotent col :
  (on_startup col).1 = Return tt ∧
  col `prefix_of` startup col ∧
  startup (startup col) = startup col.
Proof.
  unfold startup, on_startup, try_pass, seed_activities_if_empty, bind,
    count_documents, insert_many, ret, Mongo.count_documents, Mongo.insert_many.
  split; [done|]. destruct col as [|d col]; simpl; [|done].
  split; [apply prefix_nil | done].
Qed.

(** ** Documents with missing fields *)

(** X13: an activity whose [max_participants] is absent (read as 0), zero
    or negative accepts no sign-up: the request raises 400, "Student is
    already signed up" for a listed email and "No spots available" for any
    other, and writes nothing. *)
Theorem signup_without_capacity activity_name email col activity :
  Mongo.find_one activity_name col = Some activity →
  (get_max_participants activity ≤ 0)%Z →
  signup_for_activity activity_name email col
  = (Raise {| status_code := 400;
              detail := if bool_decide (email ∈ get_participants activity)
                        then "Student is already signed up"
                        else "No spots available" |}, col).
Proof.
  intros Hfind Hmax. rewrite signup_run, Hfind.
  case_bool_decide as Hin; [done|].
  by assert ((Z.of_nat (length (get_participants activity))
              >=? get_max_participants activity)%Z = true) as ->
    by (apply Z.geb_le; lia).
Qed.

Lemma signup_without_capacity_witness :
  signup_for_activity "Robotics" "alice@mergington.edu" [bare_club]
  = (Raise {| status_code := 400; detail := "No spots available" |}, [bare_club]).
Proof.
  by apply (signup_without_capacity "Robotics" "alice@mergington.edu"
              [bare_club] bare_club).
Defined.

(** X14: unregistering from an activity whose participants field is absent
    or empty raises 400 "Student is not signed up for this activity",
    whatever the email, and writes nothing. *)
Theorem unregister_from_empty activity_name email col activity :
  Mongo.find_one activity_name col = Some activity →
  get_participants activity = [] →
  unregister_from_activity activity_name email col
  = (Raise {| status_code := 400;
              detail := "Student is not signed up for this activity" |}, col).
Proof.
  intros Hfind Hempty. rewrite unregister_run, Hfind, Hempty.
  rewrite bool_decide_eq_false_2; [done|]. apply not_elem_of_nil.
Qed.

Lemma unregister_from_empty_witness :
  unregister_from_activity "Robotics" "alice@mergington.edu" [bare_club]
  = (Raise {| status_code := 400;
              detail := "Student is not signed up for this activity" |},
     [bare_club]).
Proof.
  by apply (unregister_from_empty "Robotics" "alice@mergington.edu"
              [bare_club] bare_club).
Defined.

(** ** Filling an activity *)

Lemma serve_signup_new activity_name email col activity :
  Mongo.find_one activity_name col = Some activity →
  email ∉ get_participants activity →
  (Z.of_nat (length (get_participants activity)) < get_max_participants activity)%Z →
  serve col (Signup activity_name email)
  = Mongo.update_one activity_name (Mongo.push email) col.
Proof.
  intros Hfind Hnew Hcap. unfold serve. simpl. rewrite signup_run, Hfind.
  rewrite bool_decide_eq_false_2 by done.
  by assert ((Z.of_nat (length (get_participants activity))
              >=? get_max_participants activity)%Z = false) as -> by lia.
Qed.

(** X15: signing up a list of distinct emails, none of them listed yet, for
    an activity with enough free spots for all of them enrols every one:
    afterwards the activity lists its former participants followed by the
    new emails in the order of the requests. *)
Theorem signups_enrol_in_order activity_name emails col activity :
  Mongo.find_one activity_name col = Some activity →
  NoDup emails →
  (∀ email, email ∈ emails → email ∉ get_participants activity) →
  (Z.of_nat (length (get_participants activity) + length emails)
   ≤ get_max_participants activity)%Z →
  ∃ activity',
    Mongo.find_one activity_name (serve_all (Signup activity_name <$> emails) col)
    = Some activity' ∧
    get_participants activity' = (get_participants activity ++ emails)%list ∧
    catalog_fields activity' = catalog_fields activity.
Proof.
  revert col activity.
  induction emails as [|email emails IH]; intros col activity Hfind Hnodup Hnew Hcap.
  - exists activity. by rewrite app_nil_r.
  - apply NoDup_cons in Hnodup as [Hhead Hnodup]. simpl in Hcap.
    rewrite fmap_cons. simpl.
    rewrite (serve_signup_new _ _ _ activity); [|done| |lia].
    2: { apply Hnew. left. }
    destruct (IH (Mongo.update_one activity_name (Mongo.push email) col)
                 (Mongo.push email activity)) as (activity' & Hfind' & Hps & Hfields).
    + rewrite find_one_update_one by done. by rewrite Hfind.
    + done.
    + intros p Hp. rewrite get_participants_push.
      intros [Hin | ->%list_elem_of_singleton]%elem_of_app; [|done].
      apply (Hnew p); [by right | done].
    + rewrite get_participants_push, length_app. simpl.
      unfold get_max_participants in *. simpl. lia.
    + exists activity'. split; [done|]. split; [|done].
      by rewrite Hps, get_participants_push, <- app_assoc.
Qed.

Lemma signups_enrol_in_order_witness :
  ∃ activity',
    Mongo.find_one "Math Club"
      (serve_all [Signup "Math Club" "alice@mergington.edu";
                  Signup "Math Club" "bob@mergington.edu"] INITIAL_ACTIVITIES)
    = Some activity' ∧
    get_participants activity'
    = ["james@mergington.edu"; "benjamin@mergington.edu";
       "alice@mergington.edu"; "bob@mergington.edu"].
Proof.
  destruct (signups_enrol_in_order "Math Club"
              ["alice@mergington.edu"; "bob@mergington.edu"] INITIAL_ACTIVITIES
              {| name := Some "Math Club";
                 description := Some "Solve challenging problems and participate in math competitions";
                 schedule := Some "Tuesdays, 3:30 PM - 4:30 PM";
                 max_participants := Some 10%Z;
                 participants := Some ["james@mergington.edu"; "benjamin@mergington.edu"] |})
    as (activity' & Hfind & Hps & _).
  - reflexivity.
  - by apply (bool_decide_unpack _).
  - apply (Forall_forall (λ email, email ∉ ["james@mergington.edu"; "benjamin@mergington.edu"])).
    repeat constructor; by apply (bool_decide_unpack _).
  - by vm_compute.
  - exists activity'. split; [exact Hfind | exact Hps].
Defined.

(** ** The listing after a request *)

Lemma listing_lookup col n :
  foldl get_activities_step ∅ col !! n = entry <$> last (filter (listed_as n) col).
Proof.
  rewrite get_activities_loop_lookup. by destruct (last (filter (listed_as n) col)).
Qed.

Lemma find_one_listed n col :
  n ≠ "" → Mongo.find_one n col = head (filter (listed_as n) col).
Proof.
  intros Hne. induction col as [|d rest IH]; simpl; [done|].
  rewrite filter_cons. destruct (Mongo.matches n d) eqn:E.
  - apply matches_true in E. by rewrite decide_True.
  - apply matches_false in E. rewrite decide_False; [done|]. by intros [? _].
Qed.

Lemma filter_listed_update_other n n' update col :
  (∀ d, name (update d) = name d) → n' ≠ n →
  filter (listed_as n') (Mongo.update_one n update col) = filter (listed_as n') col.
Proof.
  intros Hname Hne. induction col as [|d rest IH]; simpl; [done|].
  destruct (Mongo.matches n d) eqn:E.
  - apply matches_true in E. rewrite !filter_cons.
    rewrite !decide_False; [done|..]; unfold listed_as; rewrite ?Hname, E;
      intros [[= ->] _]; done.
  - by rewrite !filter_cons, IH.
Qed.

Lemma filter_listed_update_same n update col :
  (∀ d, name (update d) = name d) → n ≠ "" →
  filter (listed_as n) (Mongo.update_one n update col)
  = match filter (listed_as n) col with
    | [] => []
    | d :: rest => update d :: rest
    end.
Proof.
  intros Hname Hne. induction col as [|d rest IH]; simpl; [done|].
  destruct (Mongo.matches n d) eqn:E.
  - apply matches_true in E. rewrite !filter_cons.
    rewrite !decide_True; [done|..]; unfold listed_as; by rewrite ?Hname.
  - apply matches_false in E. rewrite !filter_cons.
    rewrite !decide_False; [done|..]; by intros [? _].
Qed.

Lemma listing_update_one n update col d :
  (∀ d, name (update d) = name d) →
  filter (listed_as n) col = [d] →
  foldl get_activities_step ∅ (Mongo.update_one n update col)
  = <[n := entry (update d)]> (foldl get_activities_step ∅ col).
Proof.
  intros Hname Hone.
  assert (n ≠ "") as Hne.
  { assert (d ∈ filter (listed_as n) col) as Hd by (rewrite Hone; left).
    by apply list_elem_of_filter in Hd as [[_ ?] _]. }
  apply map_eq. intros n'. rewrite listing_lookup.
  destruct (decide (n' = n)) as [->|Hn'].
  - by rewrite lookup_insert_eq, filter_listed_update_same, Hone.
  - rewrite lookup_insert_ne, listing_lookup by done.
    by rewrite filter_listed_update_other.
Qed.

(** X16: when exactly one stored document is listed under the activity's
    name, a successful sign-up shows in the listing: the entry of that
    activity now has the email at the end of its participants, and nothing
    else in the listing changes. *)
Theorem listing_after_signup activity_name email col activity :
  filter (listed_as activity_name) col = [activity] →
  email ∉ get_participants activity →
  (Z.of_nat (length (get_participants activity)) < get_max_participants activity)%Z →
  ∃ before after col',
    get_activities col = (Return before, col) ∧
    (signup_for_activity activity_name email col).2 = col' ∧
    get_activities col' = (Return after, col') ∧
    after
    = <[activity_name :=
          <["participants" := JList (get_participants activity ++ [email])]>
            (entry activity)]> before.
Proof.
  intros Hone Hnew Hcap.
  assert (activity_name ≠ "") as Hne.
  { assert (activity ∈ filter (listed_as activity_name) col) as Hd by (rewrite Hone; left).
    by apply list_elem_of_filter in Hd as [[_ ?] _]. }
  assert (Mongo.find_one activity_name col = Some activity) as Hfind
    by (by rewrite find_one_listed, Hone).
  exists (foldl get_activities_step ∅ col),
    (foldl get_activities_step ∅ (Mongo.update_one activity_name (Mongo.push email) col)),
    (Mongo.update_one activity_name (Mongo.push email) col).
  split; [done|]. split; [|split; [done|]].
  - by apply (serve_signup_new _ _ _ activity).
  - by rewrite (listing_update_one _ _ _ activity).
Qed.

Lemma listing_after_signup_witness :
  ∃ after col',
    (signup_for_activity "Robotics" "alice@mergington.edu"
       [full_chess_club;
        {| name := Some "Robotics"; description := None; schedule := None;
           max_participants := Some 3%Z; participants := None |}]).2 = col' ∧
    get_activities col' = (Return after, col') ∧
    after !! "Robotics"
    = Some {[ "description" := JStr ""; "schedule" := JStr "";
              "max_participants" := JInt 3;
              "participants" := JList ["alice@mergington.edu"] ]}.
Proof.
  destruct (listing_after_signup "Robotics" "alice@mergington.edu"
              [full_chess_club;
               {| name := Some "Robotics"; description := None; schedule := None;
                  max_participants := Some 3%Z; participants := None |}]
              {| name := Some "Robotics"; description := None; schedule := None;
                 max_participants := Some 3%Z; participants := None |})
    as (before & after & col' & _ & Hcol' & Hafter & Heq).
  - reflexivity.
  - apply not_elem_of_nil.
  - by vm_compute.
  - exists after, col'. split; [done|]. split; [done|].
    rewrite Heq. by rewrite lookup_insert_eq.
Defined.

(** X17: when exactly one stored document is listed under the activity's
    name, a successful unregistration shows in the listing: the entry of
    that activity lists the participants other than the email, and nothing
    else in the listing changes. *)
Theorem listing_after_unregister activity_name email col activity :
  filter (listed_as activity_name) col = [activity] →
  email ∈ get_participants activity →
  ∃ before after col',
    get_activities col = (Return before, col) ∧
    (unregister_from_activity activity_name email col).2 = col' ∧
    get_activities col' = (Return after, col') ∧
    after
    = <[activity_name :=
          <["participants" := JList (others email activity)]> (entry activity)]> before.
Proof.
  intros Hone Hin.
  assert (activity_name ≠ "") as Hne.
  { assert (activity ∈ filter (listed_as activity_name) col) as Hd by (rewrite Hone; left).
    by apply list_elem_of_filter in Hd as [[_ ?] _]. }
  assert (Mongo.find_one activity_name col = Some activity) as Hfind
    by (by rewrite find_one_listed, Hone).
  exists (foldl get_activities_step ∅ col),
    (foldl get_activities_step ∅ (Mongo.update_one activity_name (Mongo.pull email) col)),
    (Mongo.update_one activity_name (Mongo.pull email) col).
  split; [done|]. split; [|split; [done|]].
  - by rewrite unregister_run, Hfind, bool_decide_eq_true_2.
  - rewrite (listing_update_one _ _ _ activity) by done.
    f_equal. unfold entry, others. by rewrite get_participants_pull.
Qed.

Lemma listing_after_unregister_witness :
  ∃ after col',
    (unregister_from_activity "Chess Club" "daniel@mergington.edu"
       [full_chess_club]).2 = col' ∧
    get_activities col' = (Return after, col') ∧
    (∃ e, after !! "Chess Club" = Some e ∧
          e !! "participants" = Some (JList ["michael@mergington.edu"])).
Proof.
  destruct (listing_after_unregister "Chess Club" "daniel@mergington.edu"
              [full_chess_club] full_chess_club)
    as (before & after & col' & _ & Hcol' & Hafter & Heq).
  - reflexivity.
  - right. left.
  - exists after, col'. split; [done|]. split; [done|].
    eexists. rewrite Heq. split; [by rewrite lookup_insert_eq|].
    by rewrite lookup_insert_eq.
Defined.

(** X18: when two or more stored documents are listed under the request's
    activity name, no sign-up or unregistration for that name shows in the
    listing: the handlers write to the first such document, the listing
    shows the last. *)
Theorem listing_unchanged_under_duplicates col r :
  (2 ≤ length (filter (listed_as (request_activity r)) col))%nat →
  (get_activities (serve col r)).1 = (get_activities col).1.
Proof.
  intros Htwo.
  destruct (filter (listed_as (request_activity r)) col) as [|a [|b rest]] eqn:Hlisted;
    simpl in Htwo; [lia..|].
  assert (request_activity r ≠ "") as Hne.
  { assert (a ∈ filter (listed_as (request_activity r)) col) as Hd
      by (rewrite Hlisted; left).
    by apply list_elem_of_filter in Hd as [[_ ?] _]. }
  assert (∀ update, (∀ d, name (update d) = name d) →
            foldl get_activities_step ∅ (Mongo.update_one (request_activity r) update col)
            = foldl get_activities_step ∅ col) as Hsame.
  { intros update Hname. apply map_eq. intros n'. rewrite !listing_lookup.
    destruct (decide (n' = request_activity r)) as [->|Hn'].
    - by rewrite filter_listed_update_same, Hlisted.
    - by rewrite filter_listed_update_other. }
  unfold get_activities, bind, find, ret, Mongo.find. simpl. f_equal.
  destruct (serve_effect col r) as [| n e ? _ _ _ | n e ? _ _]; [done|..];
    by apply Hsame.
Qed.

Lemma listing_unchanged_under_duplicates_witness :
  (get_activities
     (serve [full_chess_club; doubled_club]
        (Unregister "Chess Club" "daniel@mergington.edu"))).1
  = (get_activities [full_chess_club; doubled_club]).1.
Proof.
  apply (listing_unchanged_under_duplicates [full_chess_club; doubled_club]
           (Unregister "Chess Club" "daniel@mergington.edu")).
  simpl. lia.
Defined.

Example unregister_hidden_by_duplicate :
  get_participants <$>
    serve [full_chess_club; doubled_club]
      (Unregister "Chess Club" "daniel@mergington.edu")
  = [["michael@mergington.edu"];
     ["ann@mergington.edu"; "bob@mergington.edu"; "ann@mergington.edu"]].
Proof. reflexivity. Qed.

(** ** The keys of the listing *)

Lemma get_activities_loop_dom docs result :
  dom (foldl get_activities_step result docs)
  = dom result ∪ list_to_set (listed_names docs).
Proof.
  revert result. induction docs as [|d docs IH]; intros result; simpl.
  - by rewrite (right_id_L ∅ (∪)).
  - rewrite IH. unfold get_activities_step, listed_names. simpl.
    destruct (name d) as [n|]; simpl; [|done].
    case_bool_decide; simpl; [done|].
    by rewrite dom_insert_L, (comm_L (∪) {[n]}), <- (assoc_L (∪)).
Qed.

Lemma get_activities_loop_size docs result :
  (size (foldl get_activities_step result docs) ≤ size result + length docs)%nat.
Proof.
  revert result. induction docs as [|d docs IH]; intros result; simpl; [lia|].
  etrans; [apply IH|].
  assert (size (get_activities_step result d) ≤ S (size result))%nat; [|lia].
  unfold get_activities_step. destruct (name d) as [n|]; [|lia].
  case_bool_decide; [lia|].
  rewrite map_size_insert. destruct (result !! n); simpl; lia.
Qed.

(** X19: the keys of the listing are exactly the non-empty names that occur
    in the collection, so the listing never has more entries than there are
    documents (and has fewer when a name is absent, empty or repeated). *)
Theorem listing_keys col :
  ∃ result,
    get_activities col = (Return result, col) ∧
    dom result = list_to_set (listed_names col) ∧
    (size result ≤ length col)%nat.
Proof.
  exists (foldl get_activities_step ∅ col). split; [done|]. split.
  - by rewrite get_activities_loop_dom, dom_empty_L, (left_id_L ∅ (∪)).
  - pose proof (get_activities_loop_size col ∅) as Hsize.
    by rewrite map_size_empty in Hsize.
Qed.

Lemma listed_names_cons d col :
  listed_names (d :: col)
  = match name d with
    | Some n => if bool_decide (n = "") then listed_names col else n :: listed_names col
    | None => listed_names col
    end.
Proof.
  unfold listed_names. simpl. destruct (name d) as [n|]; [|done].
  by case_bool_decide.
Qed.

Lemma listed_names_update_one activity_name update col :
  (∀ d, name (update d) = name d) →
  listed_names (Mongo.update_one activity_name update col) = listed_names col.
Proof.
  intros Hname. induction col as [|d rest IH]; [done|].
  cbn [Mongo.update_one].
  destruct (Mongo.matches activity_name d); rewrite !listed_names_cons.
  - by rewrite Hname.
  - by rewrite IH.
Qed.

(** X20: no sequence of sign-ups and unregistrations makes an activity
    appear in the listing or disappear from it: the listing has the same
    keys before and after. *)
Theorem requests_keep_listing_keys rs col :
  ∃ before after,
    get_activities col = (Return before, col) ∧
    get_activities (serve_all rs col) = (Return after, serve_all rs col) ∧
    dom after = dom before.
Proof.
  exists (foldl get_activities_step ∅ col),
    (foldl get_activities_step ∅ (serve_all rs col)).
  split; [done|]. split; [done|].
  rewrite !get_activities_loop_dom. f_equal. f_equal.
  revert col. induction rs as [|r rs IH]; intros col; simpl; [done|].
  rewrite IH.
  destruct (serve_effect col r); [done|..]; by apply listed_names_update_one.
Qed.
